(** * gretel_trainer.relational.sdk_extras: the ExtendedGretelSDK adapter

    A shallow embedding of [src/gretel_trainer/relational/sdk_extras.py].
    Python objects are records, [None]-able attributes are [option]s, the
    [dict[str, int]] of refresh attempts is a [gmap string Z], a JSON-like
    report is a tree of [pyval]s, and code that can raise returns a
    [result].  The two methods written with [try]/[except] run in a small
    state-and-exception monad. *)

From Stdlib Require Import ZArith String Ascii List Bool Lia.
From Stdlib.Strings Require Import Byte.
From Stdlib.Numbers Require Import DecimalString DecimalZ DecimalFacts.
From stdpp Require Import base option list gmap strings.

Open Scope Z_scope.
Open Scope string_scope.

(** ** Exceptions and results *)

Module Py.

(** The exceptions that can travel through the adapter.  [SdkError] stands
    for whatever the SDK, the network or the operating system raises. *)
Inductive exn : Type :=
| KeyError (key : string)
| TypeError (message : string)
| MultiTableException (message : string)
| SdkError (message : string).

Inductive result (A : Type) : Type :=
| Ret (a : A)
| Raise (e : exn).

Arguments Ret {A} a.
Arguments Raise {A} e.

#[export] Instance result_ret : MRet result := fun A a => Ret a.
#[export] Instance result_bind : MBind result := fun A B f r =>
  match r with
  | Ret a => f a
  | Raise e => Raise e
  end.

(** State and exceptions: a computation over the mutable objects [S] ends
    with a value or with a raised exception, and with the objects as the
    computation left them in either case. *)
Definition M (S A : Type) : Type := S -> result A * S.

#[export] Instance M_ret {S} : MRet (M S) := fun A a s => (Ret a, s).
#[export] Instance M_bind {S} : MBind (M S) := fun A B f m s =>
  match m s with
  | (Ret a, s') => f a s'
  | (Raise e, s') => (Raise e, s')
  end.

Definition raise {S A} (e : exn) : M S A := fun s => (Raise e, s).
Definition gets {S A} (f : S -> A) : M S A := fun s => (Ret (f s), s).
Definition modify {S} (f : S -> S) : M S unit := fun s => (Ret tt, f s).
Definition lift {S A} (r : result A) : M S A := fun s => (r, s).

(** [try: body except: handler], with a bare [except] clause: every
    exception of the body is caught, the handler runs on the state the body
    left, and what the handler raises is not caught. *)
Definition try_except {S A} (body : M S A) (handler : exn -> M S A) : M S A :=
  fun s =>
    match body s with
    | (Ret a, s') => (Ret a, s')
    | (Raise e, s') => handler e s'
    end.

End Py.
Import Py.

(** ** The SDK objects, as far as the adapter reads them *)

(** [Status] is the SDK's string-valued enumeration. *)
Definition Status : Type := string.

(** [job.ref_data] with its [values] property: the artifact keys. *)
Record RefData : Type := { values : list string }.

(** The concrete class of a job object, as [isinstance] sees it. *)
Inductive JobClass : Type := Model | RecordHandler | OtherJob.

(** A job object.  [model_id] is read only on a [Model] and [record_id] only
    on a [RecordHandler].  [refresh_effect] is what the SDK does on the next
    [refresh()]: it stores a new status, or it raises and leaves the object
    as it was.  [submit_calls] counts the calls of [submit()]. *)
Record Job : Type := {
  job_class : JobClass;
  model_id : option string;
  record_id : option string;
  data_source : option string;
  ref_data : RefData;
  status : Status;
  refresh_effect : result Status;
  submit_calls : nat
}.

(** A project: the keys of its artifacts, and the keys [delete_artifact]
    was called with, oldest first. *)
Record Project : Type := {
  artifacts : list string;
  delete_artifact_calls : list string
}.

Definition MAX_PROJECT_ARTIFACTS : Z := 10000.

Record ExtendedGretelSDK : Type := { _hybrid : bool }.

(** ** get_job_id *)

Definition get_job_id (self : ExtendedGretelSDK) (job : Job) : result (option string) :=
  match job_class job with
  | Model => Ret (model_id job)
  | RecordHandler => Ret (record_id job)
  | OtherJob => Raise (MultiTableException "Unexpected job object")
  end.

(** ** delete_data_sources *)

(** [project.delete_artifact(key)]: the call is recorded and the artifact
    with that key is gone from the project. *)
Definition delete_artifact (key : string) (project : Project) : Project :=
  {| artifacts := filter (fun k => k <> key) (artifacts project);
     delete_artifact_calls := (delete_artifact_calls project ++ [key])%list |}.

Definition delete_data_sources
    (self : ExtendedGretelSDK) (project : Project) (job : Job) : Project :=
  if negb (_hybrid self) then
    let project :=
      match data_source job with
      | Some key => delete_artifact key project
      | None => project
      end in
    foldl (fun p ref_data => delete_artifact ref_data p) project (values (ref_data job))
  else project.

(** ** cautiously_refresh_status *)

(** The two objects the method mutates: the job and the caller's dict. *)
Definition RefreshState : Type := Job * gmap string Z.

Definition set_status (s : Status) (job : Job) : Job :=
  {| job_class := job_class job; model_id := model_id job;
     record_id := record_id job; data_source := data_source job;
     ref_data := ref_data job; status := s;
     refresh_effect := refresh_effect job; submit_calls := submit_calls job |}.

(** [job.refresh()] *)
Definition refresh : M RefreshState unit := fun st =>
  match refresh_effect st.1 with
  | Ret s => (Ret tt, (set_status s st.1, st.2))
  | Raise e => (Raise e, st)
  end.

(** [refresh_attempts[key]] *)
Definition dict_getitem (key : string) : M RefreshState Z := fun st =>
  match st.2 !! key with
  | Some n => (Ret n, st)
  | None => (Raise (KeyError key), st)
  end.

(** [refresh_attempts[key] = n] *)
Definition dict_setitem (key : string) (n : Z) : M RefreshState unit :=
  modify (fun st => (st.1, <[key:=n]> st.2)).

Definition cautiously_refresh_status
    (self : ExtendedGretelSDK) (job : Job) (key : string)
    (refresh_attempts : gmap string Z) : result Status * RefreshState :=
  (try_except
     (refresh;; dict_setitem key 0)
     (fun _ => n ← dict_getitem key; dict_setitem key (n + 1));;
   gets (fun st => status st.1)) (job, refresh_attempts).

(** ** The logger *)

(** The calls made on the module's logger, oldest first, each with the
    level of the method called ([logger.info], [logger.warning]) and its
    message.  Whether a handler emits a record for a call is the logging
    configuration's matter and is not modelled. *)

Inductive Level : Type := INFO | WARNING.

Definition Logger : Type := list (Level * string).

Definition log (lvl : Level) (message : string) (logger : Logger) : Logger :=
  (logger ++ [(lvl, message)])%list.

(** ** download_file_artifact *)

(** An artifact's byte stream: the bytes it delivers and, when reading
    breaks off after them, the exception of the failing read. *)
Record Stream : Type := { content : list byte; read_fault : option exn }.

(** A [Project] or [Model] seen through [get_artifact_handle]. *)
Record GretelObject : Type := { get_artifact_handle : string -> result Stream }.

(** The local files, the paths that cannot be opened for writing with the
    exception opening them raises, and the module's logger. *)
Record World : Type := {
  files : gmap string (list byte);
  open_fault : string -> option exn;
  logger : Logger
}.

Definition set_files (fs : gmap string (list byte)) (w : World) : World :=
  {| files := fs; open_fault := open_fault w; logger := logger w |}.

Definition set_logger (lg : Logger) (w : World) : World :=
  {| files := files w; open_fault := open_fault w; logger := lg |}.

(** [open_artifact(out_path, "wb")]: the file is created or truncated and
    the handle writes to that path. *)
Definition open_artifact (out_path : string) : M World string := fun w =>
  match open_fault w out_path with
  | Some e => (Raise e, w)
  | None => (Ret out_path, set_files (<[out_path:=[]]> (files w)) w)
  end.

Definition write (dest : string) (data : list byte) : M World unit :=
  modify (fun w => set_files (<[dest := (default [] (files w !! dest) ++ data)%list]> (files w)) w).

(** [shutil.copyfileobj(src, dest)]: what the stream delivers is written,
    and a failing read raises after that. *)
Definition copyfileobj (src : Stream) (dest : string) : M World unit :=
  write dest (content src);;
  match read_fault src with
  | Some e => raise e
  | None => mret tt
  end.

Definition download_file_artifact
    (self : ExtendedGretelSDK) (gretel_object : GretelObject)
    (artifact_name out_path : string) : M World bool :=
  try_except
    (src ← lift (get_artifact_handle gretel_object artifact_name);
     dest ← open_artifact out_path;
     copyfileobj src dest;;
     mret true)
    (fun _ =>
       modify (fun w => set_logger
         (log WARNING ("Failed to download `" ++ artifact_name ++ "`") (logger w)) w);;
       mret false).

(** ** sqs_score_from_full_report *)

(** The values a report holds.  A dict keeps its items in insertion order;
    a float behaves as an int does in everything the method does with a
    value (it is neither iterable nor subscriptable, and differs from every
    string), so numbers are [PInt]. *)
#[local] Set Warnings "-register-all".
Inductive pyval : Type :=
| PNone
| PBool (b : bool)
| PInt (z : Z)
| PStr (s : string)
| PList (items : list pyval)
| PDict (items : list (string * pyval)).

Fixpoint dict_lookup (key : string) (items : list (string * pyval)) : option pyval :=
  match items with
  | [] => None
  | (k, v) :: rest => if String.eqb k key then Some v else dict_lookup key rest
  end.

(** [v[key]] for a string [key] *)
Definition getitem (v : pyval) (key : string) : result pyval :=
  match v with
  | PDict items =>
      match dict_lookup key items with
      | Some x => Ret x
      | None => Raise (KeyError key)
      end
  | PList _ => Raise (TypeError "list indices must be integers or slices, not str")
  | PStr _ => Raise (TypeError "string indices must be integers")
  | PNone | PBool _ | PInt _ => Raise (TypeError "object is not subscriptable")
  end.

(** What [for x in v] visits: the items of a list, the keys of a dict, the
    characters of a string. *)
Definition iter (v : pyval) : result (list pyval) :=
  match v with
  | PList items => Ret items
  | PDict items => Ret (map (fun kv => PStr kv.1) items)
  | PStr s => Ret (map (fun c => PStr (String c EmptyString)) (list_ascii_of_string s))
  | PNone | PBool _ | PInt _ => Raise (TypeError "object is not iterable")
  end.

(** [v == s] for a string [s] *)
Definition eq_str (v : pyval) (s : string) : bool :=
  match v with
  | PStr t => String.eqb t s
  | _ => false
  end.

Definition SQS_FIELD : string := "synthetic_data_quality_score".

(** The body of the [for] loop over the entries still to visit; running
    off the end of the loop is the method's implicit [return None]. *)
Fixpoint scan_summary (entries : list pyval) : result pyval :=
  match entries with
  | [] => Ret PNone
  | field_dict :: rest =>
      f ← getitem field_dict "field";
      if eq_str f SQS_FIELD then getitem field_dict "value" else scan_summary rest
  end.

(** [with suppress(KeyError): body], followed by the implicit [return None] *)
Definition suppress_KeyError (body : result pyval) : result pyval :=
  match body with
  | Raise (KeyError _) => Ret PNone
  | r => r
  end.

Definition sqs_score_from_full_report
    (self : ExtendedGretelSDK) (report : list (string * pyval)) : result pyval :=
  suppress_KeyError
    (summary ← getitem (PDict report) "summary";
     entries ← iter summary;
     scan_summary entries).

(** ** start_job_if_possible *)

Definition _room_in_project (self : ExtendedGretelSDK) (project : Project) (count : Z) : bool :=
  if _hybrid self then true
  else (Z.of_nat (length (artifacts project)) + count <=? MAX_PROJECT_ARTIFACTS)%Z.

Definition _log_start (self : ExtendedGretelSDK) (table_name action : string)
    (logger : Logger) : Logger :=
  log INFO ("Starting " ++ action ++ " for `" ++ table_name ++ "`.") logger.

Definition _log_waiting (self : ExtendedGretelSDK) (table_name action : string)
    (logger : Logger) : Logger :=
  log INFO ("Maximum concurrent relational jobs reached. Deferring start of `"
            ++ table_name ++ "` " ++ action ++ ".") logger.

(** [job.submit()] *)
Definition submit (job : Job) : Job :=
  {| job_class := job_class job; model_id := model_id job;
     record_id := record_id job; data_source := data_source job;
     ref_data := ref_data job; status := status job;
     refresh_effect := refresh_effect job; submit_calls := S (submit_calls job) |}.

(** The method mutates the job (through [submit]) and the logger; both
    are returned. *)
Definition start_job_if_possible
    (self : ExtendedGretelSDK) (job : Job) (table_name action : string)
    (project : Project) (number_of_artifacts : Z) (logger : Logger) : Job * Logger :=
  if match data_source job with None => true | Some _ => false end
     || _room_in_project self project number_of_artifacts
  then
    let logger := _log_start self table_name action logger in
    (submit job, logger)
  else
    (job, _log_waiting self table_name action logger).

(** ** Words of the specification, for comparison with the code *)

(** The capacity gate as the specification words it: no data source, or
    hybrid mode, or the project's artifacts and the requested ones together
    stay within the ceiling of 10,000. *)
Definition room_by_spec
    (self : ExtendedGretelSDK) (job : Job) (project : Project) (n : Z) : Prop :=
  data_source job = None \/ _hybrid self = true \/
  (Z.of_nat (length (artifacts project)) + n <= 10000)%Z.

#[export] Instance room_by_spec_dec self job project n :
  Decision (room_by_spec self job project n).
Proof. unfold room_by_spec. apply _. Defined.

(** A summary entry the scan steps over: a dict whose ["field"] is not the
    score's name. *)
Definition stepped_over (entry : pyval) : bool :=
  match getitem entry "field" with
  | Ret f => negb (eq_str f SQS_FIELD)
  | Raise _ => false
  end.

(** A summary entry the scan does not return from: a dict that lacks
    ["field"] or holds another name there. *)
Definition dict_without_score (entry : pyval) : bool :=
  match entry with
  | PDict items =>
      match dict_lookup "field" items with
      | Some f => negb (eq_str f SQS_FIELD)
      | None => true
      end
  | _ => false
  end.

(** The copy goes through when the handle is there, the destination opens
    and the stream reads to its end. *)
Definition copy_goes_through
    (gretel_object : GretelObject) (artifact_name out_path : string) (w : World) : bool :=
  match get_artifact_handle gretel_object artifact_name with
  | Ret src =>
      match open_fault w out_path, read_fault src with
      | None, None => true
      | _, _ => false
      end
  | Raise _ => false
  end.

Definition is_TypeError (e : exn) : bool :=
  match e with TypeError _ => true | _ => false end.

Definition is_KeyError (e : exn) : bool :=
  match e with KeyError _ => true | _ => false end.

(** ** Sample objects *)

Module Sample.

Definition sdk : ExtendedGretelSDK := {| _hybrid := false |}.
Definition hybrid_sdk : ExtendedGretelSDK := {| _hybrid := true |}.

Definition job : Job :=
  {| job_class := Model; model_id := Some "m-1"; record_id := None;
     data_source := Some "gretel_abc_train.csv";
     ref_data := {| values := ["gretel_abc_ref0.csv"; "gretel_abc_ref1.csv"] |};
     status := "active"; refresh_effect := Ret "completed"; submit_calls := 0 |}.

(** The same job behind a connection that is down. *)
Definition unreachable_job : Job :=
  {| job_class := Model; model_id := Some "m-1"; record_id := None;
     data_source := Some "gretel_abc_train.csv";
     ref_data := {| values := ["gretel_abc_ref0.csv"; "gretel_abc_ref1.csv"] |};
     status := "active"; refresh_effect := Raise (SdkError "connection reset");
     submit_calls := 0 |}.

Definition project : Project :=
  {| artifacts := ["gretel_abc_train.csv"; "gretel_abc_ref0.csv"; "other.csv";
                   "gretel_abc_ref1.csv"];
     delete_artifact_calls := [] |}.

Definition score_entry : pyval :=
  PDict [("field", PStr "synthetic_data_quality_score"); ("value", PInt 94)].

Definition privacy_entry : pyval :=
  PDict [("field", PStr "privacy_protection_level"); ("value", PInt 2)].

(** An entry without ["field"]. *)
Definition nameless_entry : pyval := PDict [("value", PInt 7)].

End Sample.

Module DownloadSample.

Definition report_bytes : list byte := [x7b; x7d; x0a].

(** A project with one artifact whose stream reads through, and one whose
    stream breaks off after the first byte. *)
Definition remote : GretelObject :=
  {| get_artifact_handle := fun name =>
       if String.eqb name "report_json" then
         Ret {| content := report_bytes; read_fault := None |}
       else if String.eqb name "logs" then
         Ret {| content := [x7b]; read_fault := Some (SdkError "connection reset") |}
       else Raise (SdkError "artifact not found") |}.

(** No files yet, and a directory that is read-only. *)
Definition world : World :=
  {| files := ∅;
     open_fault := fun path =>
       if String.prefix "/readonly/" path then Some (SdkError "permission denied")
       else None;
     logger := [] |}.

(** Another object that serves the report, and nothing else. *)
Definition mirror : GretelObject :=
  {| get_artifact_handle := fun name =>
       if String.eqb name "report_json" then
         Ret {| content := report_bytes; read_fault := None |}
       else Raise (SdkError "artifact not found") |}.

(** A world that has been in use: an older report at the destination,
    another file beside it, and a logger that has been called. *)
Definition used_world : World :=
  {| files := <["/tmp/report.json" := [x6f; x6c; x64; x0a]]> {["/tmp/notes" := [x68; x69]]};
     open_fault := fun path =>
       if String.prefix "/readonly/" path then Some (SdkError "permission denied")
       else None;
     logger := [(INFO, "Starting model training for `users`.")] |}.

End DownloadSample.

(** ** Callers and test helpers *)

(** A caller polling the same job [n] times in a row with the same key and
    dict, as long as no call raises; the result is that of the last call. *)
Fixpoint poll_status (n : nat) (self : ExtendedGretelSDK) (job : Job) (key : string)
    (refresh_attempts : gmap string Z) : result Status * RefreshState :=
  match n with
  | O => (Ret (status job), (job, refresh_attempts))
  | S n' =>
      match cautiously_refresh_status self job key refresh_attempts with
      | (Ret s, (job', refresh_attempts')) =>
          match n' with
          | O => (Ret s, (job', refresh_attempts'))
          | S _ => poll_status n' self job' key refresh_attempts'
          end
      | (Raise e, st) => (Raise e, st)
      end
  end.

(** [str(n)] for an int: decimal digits, with a minus sign when negative. *)
Definition str_int (n : Z) : string := NilZero.string_of_int (Z.to_int n).

(** [tests/relational/conftest.py], [_get_invented_table_suffix] *)
Definition _get_invented_table_suffix (make_suffix_execution_number : Z) : string :=
  "invented_" ++ str_int make_suffix_execution_number.

(** Every entry of a summary is a dict. *)
Definition all_dicts (entries : list pyval) : bool :=
  forallb (fun entry => match entry with PDict _ => true | _ => false end) entries.

(** * Properties *)

#[local] Set Warnings "-clear-no-such-hyp".

(** ** get_job_id *)

Example get_job_id_model : get_job_id Sample.sdk Sample.job = Ret (Some "m-1").
Proof. reflexivity. Qed.

(** C3: [get_job_id] returns [model_id] for a [Model], [record_id] for a
    [RecordHandler], and raises [MultiTableException] for a job of any other
    class; the three cases cover every job. *)
Theorem get_job_id_by_class (self : ExtendedGretelSDK) (job : Job) :
  match job_class job with
  | Model => get_job_id self job = Ret (model_id job)
  | RecordHandler => get_job_id self job = Ret (record_id job)
  | OtherJob => get_job_id self job = Raise (MultiTableException "Unexpected job object")
  end.
Proof. unfold get_job_id. destruct (job_class job); reflexivity. Qed.

(** ** start_job_if_possible *)

Lemma room_by_spec_reflect self job project n :
  (match data_source job with None => true | Some _ => false end
   || _room_in_project self project n) = true
  <-> room_by_spec self job project n.
Proof.
  unfold room_by_spec, _room_in_project, MAX_PROJECT_ARTIFACTS.
  rewrite orb_true_iff.
  destruct (data_source job) as [ds|], (_hybrid self); rewrite ?Z.leb_le;
    intuition (try discriminate; auto).
Qed.

Example starts_with_room :
  start_job_if_possible Sample.sdk Sample.job "users" "model training" Sample.project 9996 []
  = (submit Sample.job, [(INFO, "Starting model training for `users`.")]).
Proof. reflexivity. Qed.

Example defers_without_room :
  start_job_if_possible Sample.sdk Sample.job "users" "model training" Sample.project 9997 []
  = (Sample.job,
     [(INFO, "Maximum concurrent relational jobs reached. Deferring start of `users` model training.")]).
Proof. reflexivity. Qed.

(** C1: [start_job_if_possible] submits the job (once, after logging the
    start) exactly when the job has no data source, or hybrid mode is set,
    or the project's artifact count plus the requested count is at most
    10,000; in every other case the job is left as it was, [submit] is not
    called, and only the deferral is logged. *)
Theorem start_job_if_possible_gate
    (self : ExtendedGretelSDK) (job : Job) (table_name action : string)
    (project : Project) (number_of_artifacts : Z) (logger : Logger) :
  let after := start_job_if_possible self job table_name action project
                 number_of_artifacts logger in
  (submit_calls after.1 = S (submit_calls job)
     <-> room_by_spec self job project number_of_artifacts) /\
  (submit_calls after.1 = submit_calls job
     <-> ~ room_by_spec self job project number_of_artifacts) /\
  after =
    if decide (room_by_spec self job project number_of_artifacts)
    then (submit job,
          (logger ++ [(INFO, ("Starting " ++ action ++ " for `" ++ table_name ++ "`.")%string)])%list)
    else (job,
          (logger ++ [(INFO, ("Maximum concurrent relational jobs reached. Deferring start of `"
                              ++ table_name ++ "` " ++ action ++ ".")%string)])%list).
Proof.
  cbn zeta. unfold start_job_if_possible.
  pose proof (room_by_spec_reflect self job project number_of_artifacts) as Hgate.
  destruct (_ || _) eqn:Hcode.
  - assert (Hroom : room_by_spec self job project number_of_artifacts)
      by (apply Hgate; reflexivity).
    destruct (decide _) as [_|Hno]; [|contradiction].
    cbn. split; [tauto|]. split; [|reflexivity]. split; [lia|tauto].
  - assert (Hno : ~ room_by_spec self job project number_of_artifacts)
      by (intros H; apply Hgate in H; discriminate).
    destruct (decide _) as [Hroom|_]; [contradiction|].
    cbn. split; [|tauto]. split; [lia|tauto].
Qed.

(** ** delete_data_sources *)

Example deletes_sources :
  delete_data_sources Sample.sdk Sample.project Sample.job
  = {| artifacts := ["other.csv"];
       delete_artifact_calls :=
         ["gretel_abc_train.csv"; "gretel_abc_ref0.csv"; "gretel_abc_ref1.csv"] |}.
Proof. reflexivity. Qed.

(** C5: in hybrid mode [delete_data_sources] leaves the project as it is:
    no call of [delete_artifact], and the same artifacts. *)
Theorem delete_data_sources_hybrid
    (self : ExtendedGretelSDK) (project : Project) (job : Job) :
  _hybrid self = true ->
  delete_data_sources self project job = project /\
  delete_artifact_calls (delete_data_sources self project job)
    = delete_artifact_calls project /\
  artifacts (delete_data_sources self project job) = artifacts project.
Proof.
  intros Hhybrid. unfold delete_data_sources. rewrite Hhybrid. cbn. auto.
Qed.

Lemma delete_data_sources_hybrid_witness :
  _hybrid Sample.hybrid_sdk = true /\
  delete_data_sources Sample.hybrid_sdk Sample.project Sample.job = Sample.project.
Proof.
  split; [reflexivity|].
  apply (delete_data_sources_hybrid Sample.hybrid_sdk Sample.project Sample.job).
  reflexivity.
Defined.

Lemma filter_keep_all (keep : list string) :
  filter (fun k => k ∉ ([] : list string)) keep = keep.
Proof.
  induction keep as [|k keep IH]; [reflexivity|].
  rewrite filter_cons_True by apply not_elem_of_nil. by rewrite IH.
Qed.

(** One call after the other: every key is recorded, in order, and what is
    left of the project's artifacts are those with none of the keys. *)
Lemma delete_artifact_foldl (keys : list string) (project : Project) :
  foldl (fun p key => delete_artifact key p) project keys
  = {| artifacts := filter (fun k => k ∉ keys) (artifacts project);
       delete_artifact_calls := (delete_artifact_calls project ++ keys)%list |}.
Proof.
  revert project. induction keys as [|key keys IH]; intros project; cbn [foldl].
  - rewrite filter_keep_all, app_nil_r. by destruct project.
  - rewrite IH. unfold delete_artifact; cbn [artifacts delete_artifact_calls].
    f_equal.
    + rewrite list_filter_filter. apply list_filter_iff. set_solver.
    + by rewrite <- app_assoc.
Qed.

(** C6: outside hybrid mode [delete_data_sources] calls [delete_artifact]
    with the job's [data_source] when that is not [None] and then with each
    of the job's [ref_data] values, and with nothing else; the artifacts
    left in the project are those with none of these keys. *)
Theorem delete_data_sources_not_hybrid
    (self : ExtendedGretelSDK) (project : Project) (job : Job) :
  _hybrid self = false ->
  let after := delete_data_sources self project job in
  delete_artifact_calls after
    = (delete_artifact_calls project
       ++ option_list (data_source job) ++ values (ref_data job))%list /\
  (forall key, key ∈ option_list (data_source job) <-> data_source job = Some key) /\
  artifacts after
    = filter (fun k => ~ (data_source job = Some k \/ k ∈ values (ref_data job)))
        (artifacts project).
Proof.
  intros Hhybrid after. subst after. unfold delete_data_sources.
  rewrite Hhybrid. cbn [negb]. rewrite delete_artifact_foldl.
  cbn [artifacts delete_artifact_calls].
  split; [|split].
  - destruct (data_source job) as [ds|]; cbn; [|reflexivity].
    by rewrite <- app_assoc.
  - intros key. destruct (data_source job) as [ds|]; cbn; set_solver.
  - destruct (data_source job) as [ds|]; cbn [artifacts delete_artifact].
    + rewrite list_filter_filter. apply list_filter_iff. set_solver.
    + apply list_filter_iff. set_solver.
Qed.

Lemma delete_data_sources_not_hybrid_witness :
  _hybrid Sample.sdk = false /\
  delete_artifact_calls (delete_data_sources Sample.sdk Sample.project Sample.job)
  = ["gretel_abc_train.csv"; "gretel_abc_ref0.csv"; "gretel_abc_ref1.csv"].
Proof.
  split; [reflexivity|].
  exact (proj1 (delete_data_sources_not_hybrid Sample.sdk Sample.project Sample.job
                  eq_refl)).
Defined.

(** ** cautiously_refresh_status *)

Example refresh_resets :
  cautiously_refresh_status Sample.sdk Sample.job "users" {["users" := 3%Z]}
  = (Ret "completed", (set_status "completed" Sample.job, {["users" := 0%Z]})).
Proof. vm_compute. reflexivity. Qed.

Example failed_refresh_counts :
  cautiously_refresh_status Sample.sdk Sample.unreachable_job "users" {["users" := 3%Z]}
  = (Ret "active", (Sample.unreachable_job, {["users" := 4%Z]})).
Proof. vm_compute. reflexivity. Qed.

(** The three ways through the method. *)
Lemma cautiously_refresh_status_cases
    (self : ExtendedGretelSDK) (job : Job) (key : string)
    (refresh_attempts : gmap string Z) :
  cautiously_refresh_status self job key refresh_attempts
  = match refresh_effect job with
    | Ret s => (Ret s, (set_status s job, <[key:=0%Z]> refresh_attempts))
    | Raise _ =>
        match refresh_attempts !! key with
        | Some n => (Ret (status job), (job, <[key:=(n + 1)%Z]> refresh_attempts))
        | None => (Raise (KeyError key), (job, refresh_attempts))
        end
    end.
Proof.
  unfold cautiously_refresh_status, try_except, refresh, dict_setitem,
    dict_getitem, modify, gets, mbind, M_bind; cbn.
  destruct (refresh_effect job) as [s|e]; cbn; [reflexivity|].
  destruct (refresh_attempts !! key) as [n|]; reflexivity.
Qed.

(** C2, as stated, fails where the refresh fails and the key is not in the
    dict: the method raises [KeyError] instead of returning the status, and
    no counter is stored. *)
Lemma cautiously_refresh_status_missing_key_raises :
  let r := cautiously_refresh_status Sample.sdk Sample.unreachable_job "users" ∅ in
  r = (Raise (KeyError "users"), (Sample.unreachable_job, ∅)) /\
  (forall s : Status, r.1 <> Ret s) /\
  r.2.2 !! "users" = None.
Proof.
  cbn zeta. rewrite cautiously_refresh_status_cases. cbn.
  split; [reflexivity|]. split; [discriminate|reflexivity].
Qed.

(** C2, amended: a successful refresh stores zero under the key and the
    method returns the refreshed status; a failed refresh, when the dict
    holds a counter [n] under the key, stores [n + 1] there, leaves the job
    as it was and the method returns the job's status. *)
Theorem cautiously_refresh_status_counts
    (self : ExtendedGretelSDK) (job : Job) (key : string)
    (refresh_attempts : gmap string Z) :
  let r := cautiously_refresh_status self job key refresh_attempts in
  (forall s, refresh_effect job = Ret s ->
     r.1 = Ret (status r.2.1) /\ status r.2.1 = s /\
     r.2.2 = <[key:=0%Z]> refresh_attempts /\ r.2.2 !! key = Some 0%Z) /\
  (forall e n, refresh_effect job = Raise e -> refresh_attempts !! key = Some n ->
     r.1 = Ret (status job) /\ r.2.1 = job /\
     r.2.2 = <[key:=(n + 1)%Z]> refresh_attempts /\ r.2.2 !! key = Some (n + 1)%Z).
Proof.
  cbn zeta. rewrite cautiously_refresh_status_cases. split.
  - intros s ->. cbn. by rewrite lookup_insert_eq.
  - intros e n -> ->. cbn. by rewrite lookup_insert_eq.
Qed.

Lemma cautiously_refresh_status_counts_witness :
  refresh_effect Sample.unreachable_job = Raise (SdkError "connection reset") /\
  ({["users" := 3%Z]} : gmap string Z) !! "users" = Some 3%Z /\
  (cautiously_refresh_status Sample.sdk Sample.unreachable_job "users"
     {["users" := 3%Z]}).2.2 !! "users" = Some 4%Z.
Proof.
  split; [reflexivity|]. split; [reflexivity|].
  apply (proj2 (cautiously_refresh_status_counts Sample.sdk Sample.unreachable_job
                  "users" {["users" := 3%Z]})
           (SdkError "connection reset") 3%Z); reflexivity.
Defined.

(** C8: when the refresh fails and the key is not in the dict, the lookup in
    the [except] clause raises [KeyError], which leaves the method; the job
    and the dict are as they were. *)
Theorem cautiously_refresh_status_KeyError
    (self : ExtendedGretelSDK) (job : Job) (key : string)
    (refresh_attempts : gmap string Z) (e : exn) :
  refresh_effect job = Raise e ->
  refresh_attempts !! key = None ->
  cautiously_refresh_status self job key refresh_attempts
  = (Raise (KeyError key), (job, refresh_attempts)).
Proof.
  intros Hfail Hmissing.
  by rewrite cautiously_refresh_status_cases, Hfail, Hmissing.
Qed.

Lemma cautiously_refresh_status_KeyError_witness :
  refresh_effect Sample.unreachable_job = Raise (SdkError "connection reset") /\
  ({["orders" := 1%Z]} : gmap string Z) !! "users" = None /\
  cautiously_refresh_status Sample.sdk Sample.unreachable_job "users" {["orders" := 1%Z]}
  = (Raise (KeyError "users"), (Sample.unreachable_job, {["orders" := 1%Z]})).
Proof.
  split; [reflexivity|]. split; [reflexivity|].
  apply (cautiously_refresh_status_KeyError Sample.sdk Sample.unreachable_job "users"
           {["orders" := 1%Z]} (SdkError "connection reset")); reflexivity.
Defined.

(** C9: whatever the refresh does, the dict holds under every key other than
    the caller's what it held before the call. *)
Theorem cautiously_refresh_status_frame
    (self : ExtendedGretelSDK) (job : Job) (key other : string)
    (refresh_attempts : gmap string Z) :
  other <> key ->
  (cautiously_refresh_status self job key refresh_attempts).2.2 !! other
  = refresh_attempts !! other.
Proof.
  intros Hother. rewrite cautiously_refresh_status_cases.
  destruct (refresh_effect job) as [s|e]; cbn.
  - by rewrite lookup_insert_ne.
  - destruct (refresh_attempts !! key) as [n|]; cbn; [|reflexivity].
    by rewrite lookup_insert_ne.
Qed.

Lemma cautiously_refresh_status_frame_witness :
  "orders" <> "users" /\
  (cautiously_refresh_status Sample.sdk Sample.unreachable_job "users"
     (<["users" := 3%Z]> {["orders" := 1%Z]})).2.2 !! "orders"
  = (<["users" := 3%Z]> {["orders" := 1%Z]} : gmap string Z) !! "orders".
Proof.
  split; [discriminate|].
  apply (cautiously_refresh_status_frame Sample.sdk Sample.unreachable_job
           "users" "orders" (<["users" := 3%Z]> {["orders" := 1%Z]})).
  discriminate.
Defined.

(** ** download_file_artifact *)

Example download_copies :
  let r := download_file_artifact Sample.sdk DownloadSample.remote "report_json"
             "/tmp/report.json" DownloadSample.world in
  r.1 = Ret true /\
  files r.2 !! "/tmp/report.json" = Some DownloadSample.report_bytes /\
  logger r.2 = [].
Proof. vm_compute. auto. Qed.

Example download_absent_artifact :
  let r := download_file_artifact Sample.sdk DownloadSample.remote "nothing"
             "/tmp/report.json" DownloadSample.world in
  r.1 = Ret false /\ files r.2 = ∅ /\
  logger r.2 = [(WARNING, "Failed to download `nothing`")].
Proof. vm_compute. auto. Qed.

Example download_readonly_destination :
  (download_file_artifact Sample.sdk DownloadSample.remote "report_json"
     "/readonly/report.json" DownloadSample.world).1 = Ret false.
Proof. reflexivity. Qed.

Example download_broken_stream :
  let r := download_file_artifact Sample.sdk DownloadSample.remote "logs"
             "/tmp/logs" DownloadSample.world in
  r.1 = Ret false /\ files r.2 !! "/tmp/logs" = Some [x7b] /\
  logger r.2 = [(WARNING, "Failed to download `logs`")].
Proof. vm_compute. auto. Qed.

(** C7: [download_file_artifact] never raises.  It returns [True] exactly when
    nothing in the copy raised, and then the destination holds the bytes of
    the artifact's stream and nothing is logged; on any exception it
    returns [False] and logs one warning that names the artifact. *)
Theorem download_file_artifact_total
    (self : ExtendedGretelSDK) (gretel_object : GretelObject)
    (artifact_name out_path : string) (w : World) :
  let r := download_file_artifact self gretel_object artifact_name out_path w in
  r.1 = Ret (copy_goes_through gretel_object artifact_name out_path w) /\
  match r.1 with
  | Ret true =>
      (exists src, get_artifact_handle gretel_object artifact_name = Ret src /\
                   files r.2 !! out_path = Some (content src)) /\
      logger r.2 = logger w
  | Ret false =>
      logger r.2
      = (logger w ++ [(WARNING, ("Failed to download `" ++ artifact_name ++ "`")%string)])%list
  | Raise _ => False
  end.
Proof.
  cbn zeta.
  unfold download_file_artifact, copy_goes_through, try_except, lift,
    open_artifact, copyfileobj, write, modify, raise, log, mbind, M_bind, mret, M_ret.
  destruct (get_artifact_handle gretel_object artifact_name) as [src|e]; cbn;
    [|split; reflexivity].
  destruct (open_fault w out_path) as [e|]; cbn; [split; reflexivity|].
  destruct (read_fault src) as [e|]; cbn; [split; reflexivity|].
  split; [reflexivity|]. split; [|reflexivity].
  exists src. split; [reflexivity|].
  by rewrite lookup_insert_eq, lookup_insert_eq.
Qed.

(** ** sqs_score_from_full_report *)

Example sqs_found :
  sqs_score_from_full_report Sample.sdk
    [("summary", PList [Sample.privacy_entry; Sample.score_entry])] = Ret (PInt 94).
Proof. reflexivity. Qed.

Example sqs_no_summary :
  sqs_score_from_full_report Sample.sdk [("synthetic_data_quality_score", PInt 94)]
  = Ret PNone.
Proof. reflexivity. Qed.

Example sqs_summary_of_strings :
  sqs_score_from_full_report Sample.sdk [("summary", PStr "94")]
  = Raise (TypeError "string indices must be integers").
Proof. reflexivity. Qed.

Lemma getitem_raises (v : pyval) (key : string) (e : exn) :
  getitem v key = Raise e -> is_KeyError e || is_TypeError e = true.
Proof.
  destruct v as [| | | | |items]; cbn; try (intros [= <-]; reflexivity).
  destruct (dict_lookup key items); [discriminate|]. intros [= <-]. reflexivity.
Qed.

Lemma scan_summary_raises (entries : list pyval) (e : exn) :
  scan_summary entries = Raise e -> is_KeyError e || is_TypeError e = true.
Proof.
  induction entries as [|entry rest IH]; cbn; [discriminate|].
  destruct (getitem entry "field") as [f|e'] eqn:Hfield; cbn.
  - destruct (eq_str f SQS_FIELD); [apply getitem_raises|exact IH].
  - intros [= <-]. by apply getitem_raises in Hfield.
Qed.

(** The scan passes the entries it steps over. *)
Lemma scan_summary_stepped_over (pre rest : list pyval) :
  forallb stepped_over pre = true ->
  scan_summary (pre ++ rest) = scan_summary rest.
Proof.
  induction pre as [|entry pre IH]; cbn; [reflexivity|].
  unfold stepped_over at 1.
  destruct (getitem entry "field") as [f|e]; cbn; [|discriminate].
  destruct (eq_str f SQS_FIELD); cbn; [discriminate|exact IH].
Qed.

(** A dict without ["field"] ends the scan with [KeyError] when only dicts
    without the score's name come before it. *)
Lemma scan_summary_KeyError
    (pre post : list pyval) (items : list (string * pyval)) :
  forallb dict_without_score pre = true ->
  dict_lookup "field" items = None ->
  scan_summary (pre ++ PDict items :: post) = Raise (KeyError "field").
Proof.
  intros Hpre Hitems.
  induction pre as [|entry pre IH]; cbn.
  - by rewrite Hitems.
  - cbn in Hpre. apply andb_true_iff in Hpre as [Hentry Hpre].
    destruct entry as [| | | | |d]; try discriminate. cbn in *.
    destruct (dict_lookup "field" d) as [f|]; cbn; [|reflexivity].
    apply negb_true_iff in Hentry. rewrite Hentry. by apply IH.
Qed.

(** C4, as stated, fails twice: a malformed report can make the method
    raise ([TypeError] is not suppressed), and an entry without ["field"]
    hides the score of a later entry. *)
Lemma sqs_score_from_full_report_not_silent :
  sqs_score_from_full_report Sample.sdk [("summary", PInt 5)]
    = Raise (TypeError "object is not iterable") /\
  sqs_score_from_full_report Sample.sdk [("summary", PList [PNone; Sample.score_entry])]
    = Raise (TypeError "object is not subscriptable") /\
  sqs_score_from_full_report Sample.sdk
    [("summary", PList [Sample.nameless_entry; Sample.score_entry])] = Ret PNone.
Proof. repeat split; reflexivity. Qed.

(** C4, amended: the method never lets a [KeyError] out, so it returns or
    raises [TypeError].  Without a ["summary"] key it returns [None].  When
    the summary is a list in which dicts with another ["field"] come before
    the first entry whose ["field"] is ["synthetic_data_quality_score"], it
    returns that entry's ["value"], or [None] if the entry has none.  When
    every entry of the list is a dict with another ["field"], it returns
    [None].  A summary that cannot be iterated raises.  When the first
    entry of the list that is not such a dict is a dict without ["field"],
    the method returns [None]; when it is not a dict at all, indexing it
    raises [TypeError] and the method raises it too. *)
Theorem sqs_score_from_full_report_scan
    (self : ExtendedGretelSDK) (report : list (string * pyval)) :
  match sqs_score_from_full_report self report with
  | Ret _ => True
  | Raise e => is_TypeError e = true
  end /\
  (dict_lookup "summary" report = None ->
   sqs_score_from_full_report self report = Ret PNone) /\
  (forall pre items post,
     dict_lookup "summary" report = Some (PList (pre ++ PDict items :: post)) ->
     forallb stepped_over pre = true ->
     dict_lookup "field" items = Some (PStr "synthetic_data_quality_score") ->
     sqs_score_from_full_report self report
     = Ret (default PNone (dict_lookup "value" items))) /\
  (forall entries,
     dict_lookup "summary" report = Some (PList entries) ->
     forallb stepped_over entries = true ->
     sqs_score_from_full_report self report = Ret PNone) /\
  (forall summary e,
     dict_lookup "summary" report = Some summary ->
     iter summary = Raise e ->
     sqs_score_from_full_report self report = Raise e) /\
  (forall pre entry post,
     dict_lookup "summary" report = Some (PList (pre ++ entry :: post)) ->
     forallb stepped_over pre = true ->
     match entry with
     | PDict items =>
         dict_lookup "field" items = None ->
         sqs_score_from_full_report self report = Ret PNone
     | PNone | PBool _ | PInt _ | PStr _ | PList _ =>
         exists message,
           getitem entry "field" = Raise (TypeError message) /\
           sqs_score_from_full_report self report = Raise (TypeError message)
     end).
Proof.
  unfold sqs_score_from_full_report. cbn [getitem].
  split; [|split; [|split; [|split; [|split]]]].
  - destruct (dict_lookup "summary" report) as [summary|]; cbn; [|exact I].
    destruct (iter summary) as [entries|e] eqn:Hiter; cbn.
    + destruct (scan_summary entries) as [v|e] eqn:Hscan; cbn; [exact I|].
      apply scan_summary_raises in Hscan. by destruct e.
    + by destruct summary; cbn in Hiter; try discriminate; injection Hiter as <-.
  - by intros ->.
  - intros pre items post -> Hpre Hfield. cbn.
    rewrite scan_summary_stepped_over by exact Hpre. cbn.
    rewrite Hfield. cbn.
    by destruct (dict_lookup "value" items).
  - intros entries -> Hall. cbn.
    rewrite <- (app_nil_r entries).
    by rewrite scan_summary_stepped_over.
  - intros summary e -> Hiter. cbn. rewrite Hiter. cbn.
    by destruct summary; cbn in Hiter; try discriminate; injection Hiter as <-.
  - intros pre entry post -> Hpre. cbn.
    rewrite scan_summary_stepped_over by exact Hpre.
    destruct entry as [| | | | |items]; cbn; eauto.
    by intros ->.
Qed.

Lemma sqs_score_from_full_report_scan_witness :
  let report := [("summary", PList ([Sample.privacy_entry] ++ Sample.score_entry :: []))] in
  let broken :=
    [("summary", PList ([Sample.privacy_entry] ++ PInt 5 :: [Sample.score_entry]))] in
  dict_lookup "summary" report
    = Some (PList ([Sample.privacy_entry] ++ Sample.score_entry :: [])) /\
  dict_lookup "summary" broken
    = Some (PList ([Sample.privacy_entry] ++ PInt 5 :: [Sample.score_entry])) /\
  forallb stepped_over [Sample.privacy_entry] = true /\
  sqs_score_from_full_report Sample.sdk report = Ret (PInt 94) /\
  exists message,
    getitem (PInt 5) "field" = Raise (TypeError message) /\
    sqs_score_from_full_report Sample.sdk broken = Raise (TypeError message).
Proof.
  cbn zeta. split; [reflexivity|]. split; [reflexivity|]. split; [reflexivity|].
  split.
  - apply (proj1 (proj2 (proj2
             (sqs_score_from_full_report_scan Sample.sdk
                [("summary", PList ([Sample.privacy_entry] ++ Sample.score_entry :: []))])))
             [Sample.privacy_entry]
             [("field", PStr "synthetic_data_quality_score"); ("value", PInt 94)]
             []); reflexivity.
  - apply (proj2 (proj2 (proj2 (proj2 (proj2
             (sqs_score_from_full_report_scan Sample.sdk
                [("summary",
                  PList ([Sample.privacy_entry] ++ PInt 5 :: [Sample.score_entry]))])))))
             [Sample.privacy_entry] (PInt 5) [Sample.score_entry]); reflexivity.
Defined.

(** C10, as stated, fails when an entry that is not a dict comes first:
    the scan ends there with [TypeError] and the method raises. *)
Lemma sqs_score_from_full_report_TypeError_first :
  sqs_score_from_full_report Sample.sdk
    [("summary", PList [PInt 5; Sample.nameless_entry; Sample.score_entry])]
  = Raise (TypeError "object is not subscriptable").
Proof. reflexivity. Qed.

(** C10, amended: when the summary is a list in which only dicts come before
    the first entry whose ["field"] is the score's name, and one of them has
    no ["field"] key, the method returns [None] whatever comes after that
    dict, a matching entry included. *)
Theorem sqs_score_from_full_report_hidden
    (self : ExtendedGretelSDK) (report : list (string * pyval))
    (pre post : list pyval) (items : list (string * pyval)) :
  dict_lookup "summary" report = Some (PList (pre ++ PDict items :: post)) ->
  forallb dict_without_score pre = true ->
  dict_lookup "field" items = None ->
  sqs_score_from_full_report self report = Ret PNone.
Proof.
  intros Hsummary Hpre Hitems.
  unfold sqs_score_from_full_report. cbn [getitem]. rewrite Hsummary. cbn.
  by rewrite scan_summary_KeyError.
Qed.

Lemma sqs_score_from_full_report_hidden_witness :
  let summary := ([Sample.privacy_entry] ++ Sample.nameless_entry :: [Sample.score_entry])%list in
  dict_lookup "summary" [("summary", PList summary)] = Some (PList summary) /\
  forallb dict_without_score [Sample.privacy_entry] = true /\
  dict_lookup "field" [("value", PInt 7)] = None /\
  scan_summary [Sample.score_entry] = Ret (PInt 94) /\
  sqs_score_from_full_report Sample.sdk [("summary", PList summary)] = Ret PNone.
Proof.
  cbn zeta. repeat (split; [reflexivity|]).
  apply (sqs_score_from_full_report_hidden Sample.sdk
           [("summary", PList ([Sample.privacy_entry] ++ Sample.nameless_entry
                                 :: [Sample.score_entry]))]
           [Sample.privacy_entry] [Sample.score_entry] [("value", PInt 7)]);
    reflexivity.
Defined.

(** * Further properties of the adapter *)

(** ** The capacity gate *)

(** X1: room for a count is room for every smaller count, and room in a
    project is room in every project with no more artifacts. *)
Theorem room_in_project_antitone
    (self : ExtendedGretelSDK) (project smaller : Project) (count fewer : Z) :
  (fewer <= count)%Z ->
  (length (artifacts smaller) <= length (artifacts project))%nat ->
  _room_in_project self project count = true ->
  _room_in_project self smaller fewer = true.
Proof.
  unfold _room_in_project, MAX_PROJECT_ARTIFACTS.
  destruct (_hybrid self); [reflexivity|].
  rewrite !Z.leb_le. lia.
Qed.

Lemma room_in_project_antitone_witness :
  (1 <= 9996)%Z /\
  (length (artifacts (delete_artifact "other.csv" Sample.project))
   <= length (artifacts Sample.project))%nat /\
  _room_in_project Sample.sdk Sample.project 9996 = true /\
  _room_in_project Sample.sdk (delete_artifact "other.csv" Sample.project) 1 = true.
Proof.
  assert (H1 : (1 <= 9996)%Z) by lia.
  assert (H2 : (length (artifacts (delete_artifact "other.csv" Sample.project))
                <= length (artifacts Sample.project))%nat) by (vm_compute; lia).
  assert (H3 : _room_in_project Sample.sdk Sample.project 9996 = true) by reflexivity.
  split; [exact H1|]. split; [exact H2|]. split; [exact H3|].
  exact (room_in_project_antitone Sample.sdk Sample.project
           (delete_artifact "other.csv" Sample.project) 9996 1 H1 H2 H3).
Defined.

Lemma prefix_append (p s : string) : String.prefix p (p ++ s) = true.
Proof.
  induction p as [|c p IH]; [by destruct s|].
  change (String c p ++ s) with (String c (p ++ s)). cbn [String.prefix].
  by destruct (ascii_dec c c).
Qed.

Lemma prefix_mismatch_start (rest : string) :
  String.prefix "Maximum concurrent relational jobs reached." ("Starting " ++ rest) = false.
Proof. reflexivity. Qed.

Lemma prefix_waiting (rest : string) :
  String.prefix "Maximum concurrent relational jobs reached."
    ("Maximum concurrent relational jobs reached. Deferring start of `" ++ rest) = true.
Proof. reflexivity. Qed.

Lemma prefix_mismatch_waiting (rest : string) :
  String.prefix "Starting "
    ("Maximum concurrent relational jobs reached. Deferring start of `" ++ rest) = false.
Proof. reflexivity. Qed.

(** X2: every call of [start_job_if_possible] makes exactly one call on the
    logger, a [logger.info], after the logger calls made before; its
    message begins with ["Starting "] exactly when [submit] was called, and
    with ["Maximum concurrent relational jobs reached."] exactly when the
    job was left as it was. *)
Theorem start_job_if_possible_log
    (self : ExtendedGretelSDK) (job : Job) (table_name action : string)
    (project : Project) (number_of_artifacts : Z) (logger : Logger) :
  let after := start_job_if_possible self job table_name action project
                 number_of_artifacts logger in
  exists message,
    after.2 = (logger ++ [(INFO, message)])%list /\
    (String.prefix "Starting " message = true
       <-> submit_calls after.1 = S (submit_calls job)) /\
    (String.prefix "Maximum concurrent relational jobs reached." message = true
       <-> after.1 = job).
Proof.
  cbn zeta. unfold start_job_if_possible, _log_start, _log_waiting, log.
  destruct (_ || _); eexists; (split; [reflexivity|]); cbn [fst snd submit_calls submit].
  - rewrite prefix_append, prefix_mismatch_start. split; [tauto|].
    split; [discriminate|]. intros H. apply (f_equal submit_calls) in H.
    cbn in H. lia.
  - rewrite prefix_waiting, prefix_mismatch_waiting. split; [|tauto].
    split; [discriminate|lia].
Qed.

(** ** Cleaning up a job's artifacts *)

(** The deletions as one pass over the job's keys. *)
Lemma delete_data_sources_artifacts
    (self : ExtendedGretelSDK) (project : Project) (job : Job) :
  artifacts (delete_data_sources self project job)
  = if _hybrid self then artifacts project
    else filter (fun k => k ∉ (option_list (data_source job) ++ values (ref_data job))%list)
           (artifacts project).
Proof.
  unfold delete_data_sources. destruct (_hybrid self); cbn [negb]; [reflexivity|].
  rewrite delete_artifact_foldl. cbn [artifacts].
  destruct (data_source job) as [ds|]; cbn [artifacts delete_artifact option_list option_rect];
    [|reflexivity].
  rewrite list_filter_filter. apply list_filter_iff. set_solver.
Qed.

(** X3: cleaning up never adds or reorders artifacts: what is left is a
    sublist of what was there, in either mode. *)
Theorem delete_data_sources_sublist
    (self : ExtendedGretelSDK) (project : Project) (job : Job) :
  artifacts (delete_data_sources self project job) `sublist_of` artifacts project /\
  (length (artifacts (delete_data_sources self project job))
   <= length (artifacts project))%nat.
Proof.
  rewrite delete_data_sources_artifacts.
  destruct (_hybrid self); [split; reflexivity|].
  split; [apply sublist_filter|apply length_filter].
Qed.

(** X4: a project with room for a count before the job's artifacts are
    deleted has room for it afterwards. *)
Theorem delete_data_sources_keeps_room
    (self : ExtendedGretelSDK) (project : Project) (job : Job) (count : Z) :
  _room_in_project self project count = true ->
  _room_in_project self (delete_data_sources self project job) count = true.
Proof.
  unfold _room_in_project, MAX_PROJECT_ARTIFACTS.
  destruct (_hybrid self) eqn:Hhybrid; [reflexivity|].
  rewrite !Z.leb_le. intros Hroom.
  pose proof (length_filter
    (fun k => k ∉ (option_list (data_source job) ++ values (ref_data job))%list)
    (artifacts project)) as Hle.
  rewrite delete_data_sources_artifacts, Hhybrid. lia.
Qed.

Lemma delete_data_sources_keeps_room_witness :
  _room_in_project Sample.sdk Sample.project 9996 = true /\
  _room_in_project Sample.sdk
    (delete_data_sources Sample.sdk Sample.project Sample.job) 9996 = true.
Proof.
  split; [reflexivity|].
  apply (delete_data_sources_keeps_room Sample.sdk Sample.project Sample.job 9996).
  reflexivity.
Defined.

(** X5: deleting a job's artifacts a second time issues the calls again
    (nothing remembers that they were made) but leaves the same artifacts
    as the first time. *)
Theorem delete_data_sources_twice
    (self : ExtendedGretelSDK) (project : Project) (job : Job) :
  let once := delete_data_sources self project job in
  let twice := delete_data_sources self once job in
  artifacts twice = artifacts once /\
  (length (delete_artifact_calls twice) - length (delete_artifact_calls once)
   = length (delete_artifact_calls once) - length (delete_artifact_calls project))%nat.
Proof.
  cbn zeta. split.
  - rewrite (delete_data_sources_artifacts self (delete_data_sources self project job)).
    rewrite delete_data_sources_artifacts.
    destruct (_hybrid self); [reflexivity|].
    rewrite list_filter_filter. apply list_filter_iff. tauto.
  - unfold delete_data_sources. destruct (_hybrid self); cbn [negb]; [lia|].
    rewrite !delete_artifact_foldl. cbn [delete_artifact_calls].
    destruct (data_source job) as [ds|];
      cbn [delete_artifact_calls delete_artifact]; rewrite !length_app; cbn; lia.
Qed.

(** ** Counting refresh attempts *)

(** X6: the only exception that leaves [cautiously_refresh_status] is
    [KeyError] for the caller's key, and it leaves exactly when the refresh
    fails and the dict has no counter under the key; what the refresh
    itself raised never reaches the caller. *)
Theorem cautiously_refresh_status_raises
    (self : ExtendedGretelSDK) (job : Job) (key : string)
    (refresh_attempts : gmap string Z) (e : exn) :
  (cautiously_refresh_status self job key refresh_attempts).1 = Raise e
  <-> e = KeyError key /\ refresh_attempts !! key = None /\
      exists cause, refresh_effect job = Raise cause.
Proof.
  rewrite cautiously_refresh_status_cases.
  destruct (refresh_effect job) as [s|cause]; cbn.
  - split; [discriminate|]. intros (_ & _ & cause & [=]).
  - destruct (refresh_attempts !! key) as [n|]; cbn.
    + split; [discriminate|]. intros (_ & [=] & _).
    + split.
      * intros [= <-]. eauto.
      * intros (-> & _). reflexivity.
Qed.

(** X7: counters that start out non-negative stay non-negative. *)
Theorem cautiously_refresh_status_nonnegative
    (self : ExtendedGretelSDK) (job : Job) (key : string)
    (refresh_attempts : gmap string Z) :
  map_Forall (fun _ n => (0 <= n)%Z) refresh_attempts ->
  map_Forall (fun _ n => (0 <= n)%Z)
    (cautiously_refresh_status self job key refresh_attempts).2.2.
Proof.
  intros Hnonneg. rewrite cautiously_refresh_status_cases.
  destruct (refresh_effect job) as [s|cause]; cbn.
  - apply map_Forall_insert_2; [lia|exact Hnonneg].
  - destruct (refresh_attempts !! key) as [n|] eqn:Hkey; cbn; [|exact Hnonneg].
    apply map_Forall_insert_2; [|exact Hnonneg].
    specialize (Hnonneg key n Hkey). cbn in Hnonneg. lia.
Qed.

Lemma cautiously_refresh_status_nonnegative_witness :
  map_Forall (fun _ n => (0 <= n)%Z) ({["users" := 3%Z]} : gmap string Z) /\
  map_Forall (fun _ n => (0 <= n)%Z)
    (cautiously_refresh_status Sample.sdk Sample.unreachable_job "users"
       {["users" := 3%Z]}).2.2.
Proof.
  assert (H : map_Forall (fun _ n => (0 <= n)%Z) ({["users" := 3%Z]} : gmap string Z)).
  { apply map_Forall_singleton. lia. }
  split; [exact H|].
  exact (cautiously_refresh_status_nonnegative Sample.sdk Sample.unreachable_job
           "users" {["users" := 3%Z]} H).
Defined.

(** X8: no call removes a key from the dict; a successful refresh leaves the
    caller's key in it, and a failed one leaves the set of keys as it was. *)
Theorem cautiously_refresh_status_keys
    (self : ExtendedGretelSDK) (job : Job) (key : string)
    (refresh_attempts : gmap string Z) :
  let after := (cautiously_refresh_status self job key refresh_attempts).2.2 in
  dom refresh_attempts ⊆ dom after /\
  match refresh_effect job with
  | Ret _ => dom after = {[key]} ∪ dom refresh_attempts
  | Raise _ => dom after = dom refresh_attempts
  end.
Proof.
  cbn zeta. rewrite cautiously_refresh_status_cases.
  destruct (refresh_effect job) as [s|cause]; cbn.
  - rewrite dom_insert_L. split; [set_solver|reflexivity].
  - destruct (refresh_attempts !! key) as [n|] eqn:Hkey; cbn; [|done].
    rewrite dom_insert_lookup_L by (rewrite Hkey; eauto). done.
Qed.

(** X9: [n] failed refreshes in a row add [n] to the counter and leave the
    job as it was; the last call returns the job's status. *)
Theorem poll_status_failures
    (n : nat) (self : ExtendedGretelSDK) (job : Job) (key : string)
    (refresh_attempts : gmap string Z) (cause : exn) (c : Z) :
  refresh_effect job = Raise cause ->
  refresh_attempts !! key = Some c ->
  poll_status n self job key refresh_attempts
  = (Ret (status job), (job, <[key:=(c + Z.of_nat n)%Z]> refresh_attempts)).
Proof.
  intros Hfail. revert refresh_attempts c.
  induction n as [|n IH]; intros refresh_attempts c Hkey.
  - cbn. rewrite Z.add_0_r. by rewrite insert_id.
  - cbn [poll_status]. rewrite cautiously_refresh_status_cases, Hfail, Hkey.
    destruct n as [|n].
    + reflexivity.
    + rewrite (IH _ (c + 1)%Z) by apply lookup_insert_eq.
      rewrite insert_insert_eq. do 3 f_equal. lia.
Qed.

Lemma poll_status_failures_witness :
  refresh_effect Sample.unreachable_job = Raise (SdkError "connection reset") /\
  ({["users" := 0%Z]} : gmap string Z) !! "users" = Some 0%Z /\
  poll_status 5 Sample.sdk Sample.unreachable_job "users" {["users" := 0%Z]}
  = (Ret "active",
     (Sample.unreachable_job, <["users" := (0 + Z.of_nat 5)%Z]> {["users" := 0%Z]})).
Proof.
  split; [reflexivity|]. split; [reflexivity|].
  apply (poll_status_failures 5 Sample.sdk Sample.unreachable_job "users"
           {["users" := 0%Z]} (SdkError "connection reset") 0%Z); reflexivity.
Defined.

(** X10: a successful refresh puts the counter in place, so a failed
    refresh that follows it under the same key counts to one instead of
    raising [KeyError], whatever the dict held before. *)
Theorem cautiously_refresh_status_success_then_failure
    (self : ExtendedGretelSDK) (job failing : Job) (key : string)
    (refresh_attempts : gmap string Z) (s : Status) (cause : exn) :
  refresh_effect job = Ret s ->
  refresh_effect failing = Raise cause ->
  let first := cautiously_refresh_status self job key refresh_attempts in
  let second := cautiously_refresh_status self failing key first.2.2 in
  first.1 = Ret s /\
  second.1 = Ret (status failing) /\
  second.2.2 = <[key:=1%Z]> refresh_attempts.
Proof.
  intros Hok Hfail. cbn zeta.
  rewrite (cautiously_refresh_status_cases self job), Hok. cbn.
  rewrite cautiously_refresh_status_cases, Hfail, lookup_insert_eq. cbn.
  by rewrite insert_insert_eq.
Qed.

Lemma cautiously_refresh_status_success_then_failure_witness :
  refresh_effect Sample.job = Ret "completed" /\
  refresh_effect Sample.unreachable_job = Raise (SdkError "connection reset") /\
  (cautiously_refresh_status Sample.sdk Sample.unreachable_job "users"
     (cautiously_refresh_status Sample.sdk Sample.job "users" ∅).2.2).2.2
  = <["users" := 1%Z]> ∅.
Proof.
  split; [reflexivity|]. split; [reflexivity|].
  apply (cautiously_refresh_status_success_then_failure Sample.sdk Sample.job
           Sample.unreachable_job "users" ∅ "completed"
           (SdkError "connection reset")); reflexivity.
Defined.

(** ** Downloading an artifact *)

(** The four ways through the method. *)
Lemma download_file_artifact_cases
    (self : ExtendedGretelSDK) (gretel_object : GretelObject)
    (artifact_name out_path : string) (w : World) :
  let warned (w' : World) :=
    set_logger (log WARNING ("Failed to download `" ++ artifact_name ++ "`") (logger w')) w' in
  download_file_artifact self gretel_object artifact_name out_path w
  = match get_artifact_handle gretel_object artifact_name with
    | Raise _ => (Ret false, warned w)
    | Ret src =>
        match open_fault w out_path with
        | Some _ => (Ret false, warned w)
        | None =>
            let copied := set_files (<[out_path:=content src]> (files w)) w in
            match read_fault src with
            | Some _ => (Ret false, warned copied)
            | None => (Ret true, copied)
            end
        end
    end.
Proof.
  cbn zeta.
  unfold download_file_artifact, try_except, lift, open_artifact, copyfileobj,
    write, modify, raise, mbind, M_bind, mret, M_ret.
  destruct (get_artifact_handle gretel_object artifact_name) as [src|e]; cbn;
    [|reflexivity].
  destruct (open_fault w out_path) as [e|]; cbn; [reflexivity|].
  rewrite lookup_insert_eq, insert_insert_eq. cbn.
  destruct (read_fault src) as [e|]; reflexivity.
Qed.

(** X12: when the stream breaks off during the copy the method returns
    [False] and the destination is left holding the bytes that arrived:
    what the file held before is gone and the partial file is not removed. *)
Theorem download_file_artifact_partial
    (self : ExtendedGretelSDK) (gretel_object : GretelObject)
    (artifact_name out_path : string) (w : World) (src : Stream) (e : exn) :
  get_artifact_handle gretel_object artifact_name = Ret src ->
  open_fault w out_path = None ->
  read_fault src = Some e ->
  let r := download_file_artifact self gretel_object artifact_name out_path w in
  r.1 = Ret false /\ files r.2 !! out_path = Some (content src).
Proof.
  intros Hsrc Hopen Hread. cbn zeta.
  rewrite download_file_artifact_cases. cbn zeta. rewrite Hsrc, Hopen, Hread. cbn.
  by rewrite lookup_insert_eq.
Qed.

Lemma download_file_artifact_partial_witness :
  get_artifact_handle DownloadSample.remote "logs"
    = Ret {| content := [x7b]; read_fault := Some (SdkError "connection reset") |} /\
  open_fault DownloadSample.world "/tmp/logs" = None /\
  files (download_file_artifact Sample.sdk DownloadSample.remote "logs" "/tmp/logs"
           DownloadSample.world).2 !! "/tmp/logs" = Some [x7b].
Proof.
  split; [reflexivity|]. split; [reflexivity|].
  apply (download_file_artifact_partial Sample.sdk DownloadSample.remote "logs"
           "/tmp/logs" DownloadSample.world
           {| content := [x7b]; read_fault := Some (SdkError "connection reset") |}
           (SdkError "connection reset")); reflexivity.
Defined.

(** X13: when the artifact has no handle or the destination cannot be
    opened, the method returns [False] and no file is touched, the
    destination included. *)
Theorem download_file_artifact_untouched
    (self : ExtendedGretelSDK) (gretel_object : GretelObject)
    (artifact_name out_path : string) (w : World) :
  (exists e, get_artifact_handle gretel_object artifact_name = Raise e) \/
  (exists e, open_fault w out_path = Some e) ->
  let r := download_file_artifact self gretel_object artifact_name out_path w in
  r.1 = Ret false /\ files r.2 = files w.
Proof.
  intros Hfail. cbn zeta. rewrite download_file_artifact_cases. cbn zeta.
  destruct (get_artifact_handle gretel_object artifact_name) as [src|e]; cbn;
    [|split; reflexivity].
  destruct Hfail as [[e [=]]|[e ->]]. split; reflexivity.
Qed.

Lemma download_file_artifact_untouched_witness :
  ((exists e, get_artifact_handle DownloadSample.remote "report_json" = Raise e) \/
   (exists e, open_fault DownloadSample.world "/readonly/report.json" = Some e)) /\
  files (download_file_artifact Sample.sdk DownloadSample.remote "report_json"
           "/readonly/report.json" DownloadSample.world).2
  = files DownloadSample.world.
Proof.
  assert (H : (exists e, get_artifact_handle DownloadSample.remote "report_json" = Raise e) \/
              (exists e, open_fault DownloadSample.world "/readonly/report.json" = Some e)).
  { right. exists (SdkError "permission denied"). reflexivity. }
  split; [exact H|].
  exact (proj2 (download_file_artifact_untouched Sample.sdk DownloadSample.remote
                  "report_json" "/readonly/report.json" DownloadSample.world H)).
Defined.

(** X14: downloading again over a finished download.  When a later request
    for the artifact delivers the same bytes to the end and the destination
    opens again, the method returns [True] and leaves files and logger
    calls as the first download left them: the file is written over, not
    added to. *)
Theorem download_file_artifact_again
    (self : ExtendedGretelSDK) (gretel_object later_object : GretelObject)
    (artifact_name out_path : string) (w later : World) (src : Stream) :
  let r := download_file_artifact self gretel_object artifact_name out_path w in
  r.1 = Ret true ->
  files later = files r.2 ->
  open_fault later out_path = None ->
  get_artifact_handle later_object artifact_name = Ret src ->
  read_fault src = None ->
  files r.2 !! out_path = Some (content src) ->
  download_file_artifact self later_object artifact_name out_path later
  = (Ret true, later).
Proof.
  cbn zeta. intros _ Hfiles Hopen Hsrc Hread Hsame.
  rewrite download_file_artifact_cases. cbn zeta. rewrite Hsrc, Hopen, Hread.
  f_equal. rewrite <- Hfiles in Hsame. rewrite insert_id by exact Hsame.
  by destruct later.
Qed.

Lemma download_file_artifact_again_witness :
  let r := download_file_artifact Sample.sdk DownloadSample.remote "report_json"
             "/tmp/report.json" DownloadSample.used_world in
  r.1 = Ret true /\
  files r.2 !! "/tmp/report.json" = Some DownloadSample.report_bytes /\
  download_file_artifact Sample.sdk DownloadSample.mirror "report_json"
    "/tmp/report.json" r.2 = (Ret true, r.2).
Proof.
  cbn zeta. split; [reflexivity|]. split; [reflexivity|].
  apply (download_file_artifact_again Sample.sdk DownloadSample.remote
           DownloadSample.mirror "report_json" "/tmp/report.json"
           DownloadSample.used_world
           (download_file_artifact Sample.sdk DownloadSample.remote "report_json"
              "/tmp/report.json" DownloadSample.used_world).2
           {| content := DownloadSample.report_bytes; read_fault := None |});
    reflexivity.
Defined.

(** ** Reading the score off a report *)

(** Once the scan has raised or returned a value, entries further down
    the list are not looked at. *)
Lemma scan_summary_app (entries more : list pyval) :
  match scan_summary entries with
  | Raise e => scan_summary (entries ++ more) = Raise e
  | Ret v => v <> PNone -> scan_summary (entries ++ more) = Ret v
  end.
Proof.
  induction entries as [|entry entries IH]; cbn; [congruence|].
  destruct (getitem entry "field") as [f|e]; cbn; [|reflexivity].
  destruct (eq_str f SQS_FIELD); [|exact IH].
  by destruct (getitem entry "value").
Qed.

(** X15: adding entries at the end of the summary changes neither a score
    that was found nor an exception that was raised. *)
Theorem sqs_score_from_full_report_append
    (self : ExtendedGretelSDK) (report longer : list (string * pyval))
    (entries more : list pyval) :
  dict_lookup "summary" report = Some (PList entries) ->
  dict_lookup "summary" longer = Some (PList (entries ++ more)) ->
  (forall v, sqs_score_from_full_report self report = Ret v -> v <> PNone ->
             sqs_score_from_full_report self longer = Ret v) /\
  (forall e, sqs_score_from_full_report self report = Raise e ->
             sqs_score_from_full_report self longer = Raise e).
Proof.
  intros Hreport Hlonger. unfold sqs_score_from_full_report. cbn [getitem].
  rewrite Hreport, Hlonger. cbn.
  pose proof (scan_summary_app entries more) as Happ.
  destruct (scan_summary entries) as [v|e]; cbn.
  - split; [|discriminate]. intros v' [= <-] Hv. by rewrite Happ.
  - rewrite Happ. cbn. split; intros ?; by destruct e.
Qed.

Lemma sqs_score_from_full_report_append_witness :
  dict_lookup "summary" [("summary", PList [Sample.score_entry])]
    = Some (PList [Sample.score_entry]) /\
  dict_lookup "summary" [("summary", PList ([Sample.score_entry] ++ [PInt 5]))]
    = Some (PList ([Sample.score_entry] ++ [PInt 5])) /\
  sqs_score_from_full_report Sample.sdk
    [("summary", PList ([Sample.score_entry] ++ [PInt 5]))] = Ret (PInt 94).
Proof.
  split; [reflexivity|]. split; [reflexivity|].
  apply (proj1 (sqs_score_from_full_report_append Sample.sdk
                  [("summary", PList [Sample.score_entry])]
                  [("summary", PList ([Sample.score_entry] ++ [PInt 5]))]
                  [Sample.score_entry] [PInt 5] eq_refl eq_refl) (PInt 94));
    [reflexivity|discriminate].
Defined.

(** X16: a summary with nothing to iterate over gives [None], be it an
    empty list, an empty dict or an empty string; a non-empty dict or
    string, and a summary that cannot be iterated at all, raise
    [TypeError]. *)
Theorem sqs_score_from_full_report_odd_summary
    (self : ExtendedGretelSDK) (report : list (string * pyval)) (summary : pyval) :
  dict_lookup "summary" report = Some summary ->
  match summary with
  | PList [] | PDict [] | PStr EmptyString =>
      sqs_score_from_full_report self report = Ret PNone
  | PList (_ :: _) => True
  | PDict (_ :: _) | PStr (String _ _) | PNone | PBool _ | PInt _ =>
      exists message, sqs_score_from_full_report self report = Raise (TypeError message)
  end.
Proof.
  intros Hsummary. unfold sqs_score_from_full_report. cbn [getitem].
  rewrite Hsummary. cbn.
  destruct summary as [| | |[|c s]|[|entry entries]|[|[k v] items]]; cbn; eauto.
Qed.

Lemma sqs_score_from_full_report_odd_summary_witness :
  dict_lookup "summary" [("summary", PDict [("field", PStr "synthetic_data_quality_score")])]
    = Some (PDict [("field", PStr "synthetic_data_quality_score")]) /\
  exists message,
    sqs_score_from_full_report Sample.sdk
      [("summary", PDict [("field", PStr "synthetic_data_quality_score")])]
    = Raise (TypeError message).
Proof.
  split; [reflexivity|].
  apply (sqs_score_from_full_report_odd_summary Sample.sdk
           [("summary", PDict [("field", PStr "synthetic_data_quality_score")])]
           (PDict [("field", PStr "synthetic_data_quality_score")])).
  reflexivity.
Defined.

Lemma scan_summary_all_dicts (entries : list pyval) :
  all_dicts entries = true ->
  match scan_summary entries with
  | Ret _ => True
  | Raise e => is_KeyError e = true
  end.
Proof.
  induction entries as [|entry entries IH]; cbn; [done|].
  destruct entry as [| | | | |items]; try discriminate. intros Hrest. cbn.
  destruct (dict_lookup "field" items) as [f|]; cbn; [|reflexivity].
  destruct (eq_str f SQS_FIELD); [|by apply IH].
  by destruct (dict_lookup "value" items).
Qed.

(** X17: when the summary is a list of dicts the method returns and does
    not raise, whatever keys the dicts have or lack. *)
Theorem sqs_score_from_full_report_list_of_dicts
    (self : ExtendedGretelSDK) (report : list (string * pyval)) (entries : list pyval) :
  dict_lookup "summary" report = Some (PList entries) ->
  all_dicts entries = true ->
  exists v, sqs_score_from_full_report self report = Ret v.
Proof.
  intros Hsummary Hdicts. unfold sqs_score_from_full_report. cbn [getitem].
  rewrite Hsummary. cbn.
  pose proof (scan_summary_all_dicts entries Hdicts) as Hscan.
  destruct (scan_summary entries) as [v|e]; cbn; [eauto|].
  destruct e; try discriminate. eauto.
Qed.

Lemma sqs_score_from_full_report_list_of_dicts_witness :
  dict_lookup "summary"
    [("summary", PList [Sample.privacy_entry; Sample.nameless_entry; Sample.score_entry])]
    = Some (PList [Sample.privacy_entry; Sample.nameless_entry; Sample.score_entry]) /\
  all_dicts [Sample.privacy_entry; Sample.nameless_entry; Sample.score_entry] = true /\
  exists v,
    sqs_score_from_full_report Sample.sdk
      [("summary", PList [Sample.privacy_entry; Sample.nameless_entry; Sample.score_entry])]
    = Ret v.
Proof.
  split; [reflexivity|]. split; [reflexivity|].
  apply (sqs_score_from_full_report_list_of_dicts Sample.sdk
           [("summary", PList [Sample.privacy_entry; Sample.nameless_entry;
                               Sample.score_entry])]
           [Sample.privacy_entry; Sample.nameless_entry; Sample.score_entry]);
    reflexivity.
Defined.

(** ** The test helpers *)

Example invented_suffix_3 : _get_invented_table_suffix 3 = "invented_3".
Proof. reflexivity. Qed.

Example invented_suffix_12 : _get_invented_table_suffix 12 = "invented_12".
Proof. reflexivity. Qed.

Example str_int_negative : str_int (-40) = "-40".
Proof. reflexivity. Qed.

Lemma to_int_not_nil (n : Z) : Z.to_int n <> Decimal.Pos Decimal.Nil /\
                               Z.to_int n <> Decimal.Neg Decimal.Nil.
Proof.
  pose proof (DecimalZ.to_of (Z.to_int n)) as Hnorm.
  rewrite DecimalZ.of_to in Hnorm.
  split; intros Hnil; rewrite Hnil in Hnorm; discriminate.
Qed.

Lemma str_int_inj (n m : Z) : str_int n = str_int m -> n = m.
Proof.
  unfold str_int. intros Hstr.
  apply (f_equal NilZero.int_of_string) in Hstr.
  destruct (to_int_not_nil n) as [Hn1 Hn2], (to_int_not_nil m) as [Hm1 Hm2].
  rewrite !NilZero.isi in Hstr by assumption.
  injection Hstr as Hint. by apply DecimalZ.to_int_inj.
Qed.

(** X18: two execution numbers give the same invented-table suffix only
    when they are the same number, so the suffixes of distinct executions
    never collide. *)
Theorem get_invented_table_suffix_inj (n m : Z) :
  _get_invented_table_suffix n = _get_invented_table_suffix m <-> n = m.
Proof.
  split; [|by intros ->].
  unfold _get_invented_table_suffix. intros Hsuffix.
  apply str_int_inj. by injection Hsuffix.
Qed.
